(** * Smart_LLM: the chain-of-thought demo of [agent.py]

    A shallow embedding of [CoTEnvironment], [CoTAgent], the three role
    classes and [cot_process], with the properties of the specification
    stated over it.

    Python objects live in a store addressed by references, because the one
    [CoTEnvironment] built by [cot_process] is shared by the three agents.
    Python exceptions are results: a computation either returns a value or
    raises, and [try ... except Exception] is a combinator on computations.
    The hosted chat-completion service is not part of the program: it is a
    transition function over an abstract service state, and every request
    handed to the client is recorded in a ghost trace. *)

From Stdlib Require Import Floats ZArith.
From stdpp Require Import gmap strings list.

Open Scope string_scope.
Open Scope list_scope.

(** ** Python values the program handles *)

(** An instance of Python's [Exception] class: the type's name and the text
    that [str(e)] gives.  (Interpreter-level [BaseException]s outside
    [Exception], such as a keyboard interrupt, are not failures of the
    service and are outside this model.) *)
Record PyException := mkException {
  exc_type : string;
  exc_text : string
}.

(** [str(e)] *)
Definition str (e : PyException) : string := exc_text e.

Definition IndexError (msg : string) : PyException := mkException "IndexError" msg.
Definition AttributeError (msg : string) : PyException := mkException "AttributeError" msg.

(** A reference to an object of the store. *)
Abbreviation ref := positive.

(** The client object [ZhipuAI(api_key=...)] of the external library: built
    from the key string of the form, it keeps the key; building it sends
    nothing. *)
Record ZhipuAI := mkZhipuAI {
  api_key : string
}.

(** The attributes [CoTEnvironment.__init__] sets on [self]. *)
Record CoTEnvironment := mkCoTEnvironment {
  client : ZhipuAI;
  model : string;
  top_p : float;
  temperature : float;
  max_tokens : Z
}.

(** The attributes [CoTAgent.__init__] sets on [self]; [environment] is a
    reference: the agents of one run share one gateway object. *)
Record CoTAgent := mkCoTAgent {
  name : string;
  system_message : string;
  environment : ref
}.

Inductive obj :=
| EnvObj (e : CoTEnvironment)
| AgentObj (a : CoTAgent).

(** ** The outbound request *)

(** One entry of [messages]: the dict with the keys "role" and "content". *)
Record ChatMessage := mkChatMessage {
  role : string;
  content : string
}.

(** The keyword arguments of [client.chat.completions.create]. *)
Record ChatRequest := mkChatRequest {
  req_model : string;
  req_messages : list ChatMessage;
  req_top_p : float;
  req_temperature : float;
  req_max_tokens : Z;
  req_stream : bool
}.

(** ** The reply of the service *)

Module Reply.

(** Modelled from the spec: the reply type of the external client library is
    not part of the repository.  The external-interface section expects "a
    response containing at least one choice whose message content is a
    string"; the list of choices can be empty and a choice can come without
    its message ([None]), which is what reading
    [response.choices[0].message.content] can trip over. *)
Record CompletionMessage := mkMessage {
  content : string
}.

Record CompletionChoice := mkChoice {
  message : option CompletionMessage
}.

Record Completion := mkCompletion {
  choices : list CompletionChoice
}.

End Reply.

(** What one call of the client does: it returns a reply or raises. *)
Inductive Outcome :=
| Returned (r : Reply.Completion)
| Raised (e : PyException).

(** ** Computations *)

Inductive Result (A : Type) :=
| Ok (a : A)
| Raise (e : PyException).
Arguments Ok {A} a.
Arguments Raise {A} e.

Section Program.

(** The state of the external service and its reaction to one request sent
    through a client. *)
Variable W : Type.
Variable create : ZhipuAI -> ChatRequest -> W -> Outcome * W.

Record State := mkState {
  heap : gmap positive obj;
  service : W;
  sent : list ChatRequest
}.

Definition M (A : Type) : Type := State -> Result A * State.

Definition ret {A} (a : A) : M A := fun s => (Ok a, s).

Definition raise {A} (e : PyException) : M A := fun s => (Raise e, s).

Definition bind {A B} (c : M A) (k : A -> M B) : M B :=
  fun s =>
    match c s with
    | (Ok a, s') => k a s'
    | (Raise e, s') => (Raise e, s')
    end.

(** [try: body  except Exception as e: handler(e)] *)
Definition try_except {A} (body : M A) (handler : PyException -> M A) : M A :=
  fun s =>
    match body s with
    | (Ok a, s') => (Ok a, s')
    | (Raise e, s') => handler e s'
    end.

Notation "'let*' x ':=' c 'in' k" := (bind c (fun x => k))
  (at level 10, x name, c at level 100, k at level 200).

(** Object creation: the new object gets a reference no object has. *)
Definition alloc (o : obj) : M ref :=
  fun s =>
    let l := fresh (dom (heap s)) in
    (Ok l, mkState (<[l := o]> (heap s)) (service s) (sent s)).

(** Reading the attributes of a [CoTEnvironment] through [self]. *)
Definition get_env (self : ref) : M CoTEnvironment :=
  fun s =>
    match heap s !! self with
    | Some (EnvObj e) => (Ok e, s)
    | Some (AgentObj _) =>
        (Raise (AttributeError "'CoTAgent' object has no attribute 'client'"), s)
    | None =>
        (Raise (AttributeError "'NoneType' object has no attribute 'client'"), s)
    end.

(** Reading the attributes of a [CoTAgent] through [self]. *)
Definition get_agent (self : ref) : M CoTAgent :=
  fun s =>
    match heap s !! self with
    | Some (AgentObj a) => (Ok a, s)
    | Some (EnvObj _) =>
        (Raise (AttributeError "'CoTEnvironment' object has no attribute 'environment'"), s)
    | None =>
        (Raise (AttributeError "'NoneType' object has no attribute 'environment'"), s)
    end.

(** [self.client.chat.completions.create(...)]: one blocking call; the
    request is recorded, the service moves on and answers. *)
Definition chat_completions_create (c : ZhipuAI) (rq : ChatRequest) : M Reply.Completion :=
  fun s =>
    let '(o, w) := create c rq (service s) in
    let s' := mkState (heap s) w (sent s ++ [rq]) in
    match o with
    | Returned r => (Ok r, s')
    | Raised e => (Raise e, s')
    end.

(** [xs[0]] *)
Definition first_item {A} (xs : list A) : M A :=
  match xs with
  | x :: _ => ret x
  | [] => raise (IndexError "list index out of range")
  end.

(** [choice.message.content] *)
Definition message_content (c : Reply.CompletionChoice) : M string :=
  match Reply.message c with
  | Some m => ret (Reply.content m)
  | None => raise (AttributeError "'NoneType' object has no attribute 'content'")
  end.

(** The request [ask_model] builds from the attributes of [self] and its
    two arguments. *)
Definition build_request (env : CoTEnvironment) (system_prompt user_prompt : string)
  : ChatRequest :=
  {| req_model := model env;
     req_messages := [ mkChatMessage "system" system_prompt;
                       mkChatMessage "user" user_prompt ];
     req_top_p := top_p env;
     req_temperature := temperature env;
     req_max_tokens := max_tokens env;
     req_stream := false |}.

(** The body of the [try] block of [ask_model]. *)
Definition ask_model_body (self : ref) (system_prompt user_prompt : string) : M string :=
  let* env := get_env self in
  let* response :=
    chat_completions_create (client env) (build_request env system_prompt user_prompt) in
  let* choice := first_item (Reply.choices response) in
  message_content choice.

(** [CoTEnvironment.ask_model] *)
Definition ask_model (self : ref) (system_prompt user_prompt : string) : M string :=
  try_except
    (ask_model_body self system_prompt user_prompt)
    (fun e => ret ("Error: " +:+ str e)).

(** [CoTEnvironment.__init__] *)
Definition CoTEnvironment_init
    (key model0 : string) (top_p0 temperature0 : float) (max_tokens0 : Z) : M ref :=
  alloc (EnvObj {| client := mkZhipuAI key;
                   model := model0;
                   top_p := top_p0;
                   temperature := temperature0;
                   max_tokens := max_tokens0 |}).

(** [CoTAgent.__init__] *)
Definition CoTAgent_init (name0 system_message0 : string) (environment0 : ref) : M ref :=
  alloc (AgentObj {| name := name0;
                     system_message := system_message0;
                     environment := environment0 |}).

(** [ProblemAnalyzer.__init__], [StepReasoner.__init__] and
    [Verifier.__init__]: each hands its two literals to [CoTAgent.__init__]. *)
Definition ProblemAnalyzer_name : string := "Problem Analyzer".
Definition ProblemAnalyzer_system_message : string :=
  "你是理解复杂问题的专家。" +:+
  "你的职责是确定问题的关键要素，并将其分解为一个结构化的、循序渐进的计划。" +:+
  "专注于分析的清晰度和完整性。".

Definition StepReasoner_name : string := "Step-by-Step Reasoner".
Definition StepReasoner_system_message : string :=
  "你是一个乐于解答各种问题的助手，你的任务是为针对上述步骤给出回答。".

Definition Verifier_name : string := "Logical Verifier".
Definition Verifier_system_message : string :=
  "你是一个乐于解答各种问题的助手，验证推理过程的逻辑一致性和结果的可靠性。" +:+
  "检查每个结论的正确性，并找出任何潜在的错误或差距。".

Definition ProblemAnalyzer_init (environment0 : ref) : M ref :=
  CoTAgent_init ProblemAnalyzer_name ProblemAnalyzer_system_message environment0.

Definition StepReasoner_init (environment0 : ref) : M ref :=
  CoTAgent_init StepReasoner_name StepReasoner_system_message environment0.

Definition Verifier_init (environment0 : ref) : M ref :=
  CoTAgent_init Verifier_name Verifier_system_message environment0.

(** The classes of the store objects resolve [ask_model] when it is called,
    so a test can put another function in its place: the method that
    [self.environment.ask_model] finds is a parameter of the role wrapper
    and of the orchestration. *)
Section Dispatch.

Variable ask : ref -> string -> string -> M string.

(** [self.environment.ask_model]: the attribute exists on a gateway object. *)
Definition lookup_ask_model (target : ref) : M unit :=
  fun s =>
    match heap s !! target with
    | Some (EnvObj _) => (Ok tt, s)
    | Some (AgentObj _) =>
        (Raise (AttributeError "'CoTAgent' object has no attribute 'ask_model'"), s)
    | None =>
        (Raise (AttributeError "'NoneType' object has no attribute 'ask_model'"), s)
    end.

(** [CoTAgent.think] *)
Definition think_via (self : ref) (user_prompt : string) : M string :=
  let* agent := get_agent self in
  let* _ := lookup_ask_model (environment agent) in
  ask (environment agent) (system_message agent) user_prompt.

(** [cot_process] *)
Definition cot_process_via
    (key model0 : string) (top_p0 temperature0 : float) (max_tokens0 : Z)
    (question : string) : M (string * string * string) :=
  let* cot_environment :=
    CoTEnvironment_init key model0 top_p0 temperature0 max_tokens0 in
  let* analyzer := ProblemAnalyzer_init cot_environment in
  let* reasoner := StepReasoner_init cot_environment in
  let* verifier := Verifier_init cot_environment in
  let* steps := think_via analyzer question in
  let* reasoning := think_via reasoner steps in
  let* verification := think_via verifier reasoning in
  ret (steps, reasoning, verification).

End Dispatch.

(** The program as it runs: the method found is [CoTEnvironment.ask_model]. *)
Definition think : ref -> string -> M string := think_via ask_model.

Definition cot_process :
    string -> string -> float -> float -> Z -> string -> M (string * string * string) :=
  cot_process_via ask_model.

End Program.

Arguments State W : clear implicits.
Arguments mkState {W} heap service sent.
Arguments heap {W} s.
Arguments service {W} s.
Arguments sent {W} s.
Arguments M W A : clear implicits.
Arguments ret {W A} a s.
Arguments raise {W A} e s.
Arguments bind {W A B} c k s.
Arguments try_except {W A} body handler s.
Arguments alloc {W} o s.
Arguments get_env {W} self s.
Arguments get_agent {W} self s.
Arguments lookup_ask_model {W} target s.
Arguments first_item {W A} xs s.
Arguments message_content {W} c s.
Arguments chat_completions_create {W} create c rq s.
Arguments ask_model_body {W} create self system_prompt user_prompt s.
Arguments ask_model {W} create self system_prompt user_prompt s.
Arguments CoTEnvironment_init {W} key model0 top_p0 temperature0 max_tokens0 s.
Arguments CoTAgent_init {W} name0 system_message0 environment0 s.
Arguments ProblemAnalyzer_init {W} environment0 s.
Arguments StepReasoner_init {W} environment0 s.
Arguments Verifier_init {W} environment0 s.
Arguments think_via {W} ask self user_prompt s.
Arguments cot_process_via {W} ask key model0 top_p0 temperature0 max_tokens0 question s.
Arguments think {W} create self user_prompt s.
Arguments cot_process {W} create key model0 top_p0 temperature0 max_tokens0 question s.

(** ** What the code is compared with *)

(** Reading [response.choices[0].message.content] off a reply, as a value. *)
Definition read_reply (r : Reply.Completion) : Result string :=
  match Reply.choices r with
  | [] => Raise (IndexError "list index out of range")
  | c :: _ =>
      match Reply.message c with
      | Some m => Ok (Reply.content m)
      | None => Raise (AttributeError "'NoneType' object has no attribute 'content'")
      end
  end.

(** What the call followed by the reading gives: the content, or the
    exception raised by the one or by the other. *)
Definition attempt (o : Outcome) : Result string :=
  match o with
  | Returned r => read_reply r
  | Raised e => Raise e
  end.

(** The string the gateway makes of it. *)
Definition rendered (o : Outcome) : string :=
  match attempt o with
  | Ok text => text
  | Raise e => "Error: " +:+ str e
  end.

(** One exchange with the service seen from outside: the text the gateway
    returns and the state the service is left in. *)
Definition exchange {W} (create : ZhipuAI -> ChatRequest -> W -> Outcome * W)
    (env : CoTEnvironment) (system_prompt user_prompt : string) (w : W) : string * W :=
  let '(o, w') := create (client env) (build_request env system_prompt user_prompt) w in
  (rendered o, w').

(** The system and user texts of a request. *)
Definition texts_of_role (r : string) (rq : ChatRequest) : list string :=
  content <$> filter (fun m => role m = r) (req_messages rq).

(** A sequence of gateway calls on one object, as a caller would make them. *)
Fixpoint ask_all {W} (create : ZhipuAI -> ChatRequest -> W -> Outcome * W)
    (self : ref) (calls : list (string * string)) : M W (list string) :=
  match calls with
  | [] => ret []
  | (system_prompt, user_prompt) :: rest =>
      bind (ask_model create self system_prompt user_prompt) (fun text =>
      bind (ask_all create self rest) (fun texts =>
      ret (text :: texts)))
  end.

(** The gateway object a run builds from the form values. *)
Definition run_env (key model0 : string) (top_p0 temperature0 : float) (max_tokens0 : Z)
  : CoTEnvironment :=
  {| client := mkZhipuAI key;
     model := model0;
     top_p := top_p0;
     temperature := temperature0;
     max_tokens := max_tokens0 |}.

(** The store with one more object, at the reference [alloc] picks. *)
Definition store_new (o : obj) (h : gmap positive obj) : gmap positive obj :=
  <[fresh (dom h) := o]> h.

(** The three role objects of a run whose gateway is at [l]. *)
Definition analyzer_obj (l : ref) : obj :=
  AgentObj (mkCoTAgent ProblemAnalyzer_name ProblemAnalyzer_system_message l).
Definition reasoner_obj (l : ref) : obj :=
  AgentObj (mkCoTAgent StepReasoner_name StepReasoner_system_message l).
Definition verifier_obj (l : ref) : obj :=
  AgentObj (mkCoTAgent Verifier_name Verifier_system_message l).

(** The store once a run has built its four objects on top of [h]. *)
Definition run_heap (env : CoTEnvironment) (h : gmap positive obj) : gmap positive obj :=
  let l := fresh (dom h) in
  store_new (verifier_obj l)
    (store_new (reasoner_obj l)
      (store_new (analyzer_obj l)
        (store_new (EnvObj env) h))).

(** The references of the three role objects in that store. *)
Definition analyzer_ref (env : CoTEnvironment) (h : gmap positive obj) : ref :=
  fresh (dom (store_new (EnvObj env) h)).
Definition reasoner_ref (env : CoTEnvironment) (h : gmap positive obj) : ref :=
  fresh (dom (store_new (analyzer_obj (fresh (dom h))) (store_new (EnvObj env) h))).
Definition verifier_ref (env : CoTEnvironment) (h : gmap positive obj) : ref :=
  fresh (dom (store_new (reasoner_obj (fresh (dom h)))
                (store_new (analyzer_obj (fresh (dom h))) (store_new (EnvObj env) h)))).

(** The three calls of a run, made directly on the gateway at [gateway]. *)
Definition three_steps {W} (ask : ref -> string -> string -> M W string)
    (gateway : ref) (question : string) : M W (string * string * string) :=
  bind (ask gateway ProblemAnalyzer_system_message question) (fun steps =>
  bind (ask gateway StepReasoner_system_message steps) (fun reasoning =>
  bind (ask gateway Verifier_system_message reasoning) (fun verification =>
  ret (steps, reasoning, verification)))).

(** A run seen from outside: the three texts, each exchange fed with the
    text of the one before, and the state the service is left in. *)
Definition run_texts {W} (create : ZhipuAI -> ChatRequest -> W -> Outcome * W)
    (env : CoTEnvironment) (question : string) (w : W) : (string * string * string) * W :=
  let '(steps, w1) := exchange create env ProblemAnalyzer_system_message question w in
  let '(reasoning, w2) := exchange create env StepReasoner_system_message steps w1 in
  let '(verification, w3) := exchange create env Verifier_system_message reasoning w2 in
  ((steps, reasoning, verification), w3).

(** The requests of a run that produced [texts]. *)
Definition run_requests (env : CoTEnvironment) (question : string)
    (texts : string * string * string) : list ChatRequest :=
  let '(steps, reasoning, _) := texts in
  [ build_request env ProblemAnalyzer_system_message question;
    build_request env StepReasoner_system_message steps;
    build_request env Verifier_system_message reasoning ].

(** A request that carries the gateway's model and sampling values. *)
Definition carries_config (env : CoTEnvironment) (rq : ChatRequest) : Prop :=
  req_model rq = model env
  ∧ req_top_p rq = top_p env
  ∧ req_temperature rq = temperature env
  ∧ req_max_tokens rq = max_tokens env.

(** The three texts of a run against a service whose reply is a function
    [respond] of the client and the request. *)
Definition texts_of_responder (respond : ZhipuAI -> ChatRequest -> Outcome)
    (env : CoTEnvironment) (question : string) : string * string * string :=
  let steps :=
    rendered (respond (client env)
                (build_request env ProblemAnalyzer_system_message question)) in
  let reasoning :=
    rendered (respond (client env)
                (build_request env StepReasoner_system_message steps)) in
  let verification :=
    rendered (respond (client env)
                (build_request env Verifier_system_message reasoning)) in
  (steps, reasoning, verification).

(** A method that leaves the store as it found it. *)
Definition keeps_store {W} (ask : ref -> string -> string -> M W string) : Prop :=
  ∀ (l : ref) (system_prompt user_prompt : string) (s : State W),
    heap (ask l system_prompt user_prompt s).2 = heap s.

(** ** Test doubles *)

(** A service that plays a script: each call consumes the next outcome. *)
Definition scripted (c : ZhipuAI) (rq : ChatRequest) (script : list Outcome)
  : Outcome * list Outcome :=
  match script with
  | o :: rest => (o, rest)
  | [] => (Raised (mkException "ConnectionError" "Connection error."), [])
  end.

(** A reply with one choice carrying [text]. *)
Definition reply_with (text : string) : Outcome :=
  Returned (Reply.mkCompletion [Reply.mkChoice (Some (Reply.mkMessage text))]).

(** A service without memory: the reply is a function of the request. *)
Definition last_user_text (rq : ChatRequest) : string :=
  default "" (last (texts_of_role "user" rq)).

Definition parrot (c : ZhipuAI) (rq : ChatRequest) (w : unit) : Outcome * unit :=
  (reply_with ("re: " +:+ last_user_text rq), w).

(** A stand-in for [CoTEnvironment.ask_model] with a list of return values
    (a mock with a side-effect list): call number [n] returns the [n]-th
    value and is recorded with its arguments; past the list it raises. *)
Definition mock_ask_model (values : list string)
    (self : ref) (system_prompt user_prompt : string) : M (list (string * string)) string :=
  fun s =>
    let s' := mkState (heap s) (service s ++ [(system_prompt, user_prompt)]) (sent s) in
    match values !! length (service s) with
    | Some v => (Ok v, s')
    | None => (Raise (mkException "StopIteration" ""), s')
    end.

(** An empty world. *)
Definition start {W} (w : W) : State W := mkState ∅ w [].

(** A gateway as the form's defaults would build it, and a world that
    holds nothing else. *)
Definition demo_env : CoTEnvironment := run_env "secret" "glm-4-plus" 0.5 0.5 600.

Definition with_gateway {W} (w : W) : State W :=
  (CoTEnvironment_init "secret" "glm-4-plus" 0.5 0.5 600 (start w)).2.

Definition connection_error : PyException :=
  mkException "APIConnectionError" "Connection error.".

(** The response function of [parrot]. *)
Definition parrot_reply (c : ZhipuAI) (rq : ChatRequest) : Outcome :=
  reply_with ("re: " +:+ last_user_text rq).

(** A service seen with a recorder in front of it: every call is written
    down with the key of the client it came through, and passed on. *)
Definition recording {W} (create : ZhipuAI -> ChatRequest -> W -> Outcome * W)
    (c : ZhipuAI) (rq : ChatRequest) (w : W * list (string * ChatRequest))
  : Outcome * (W * list (string * ChatRequest)) :=
  let '(o, w') := create c rq w.1 in
  (o, (w', w.2 ++ [(api_key c, rq)])).

(** A service that is down: every call raises [e]. *)
Definition unreachable (e : PyException) (c : ZhipuAI) (rq : ChatRequest) (w : unit)
  : Outcome * unit :=
  (Raised e, w).

(** A world with a gateway and two agents, the second of which was handed
    the first agent where a gateway is expected. *)
Definition with_misplaced_agent {W} (w : W) : State W :=
  (bind (CoTEnvironment_init "secret" "glm-4-plus" 0.5 0.5 600) (fun gateway =>
   bind (CoTAgent_init "Helper" "Be brief." gateway) (fun helper =>
   CoTAgent_init "Lost" "Be kind." helper)) (start w)).2.

(** A world with a gateway and two agents that differ in their names only. *)
Definition with_two_names {W} (w : W) : State W :=
  (bind (CoTEnvironment_init "secret" "glm-4-plus" 0.5 0.5 600) (fun gateway =>
   bind (CoTAgent_init "Analyst" "Be brief." gateway) (fun analyst =>
   CoTAgent_init "Critic" "Be brief." gateway)) (start w)).2.

(** ** Properties *)

Section Properties.

Context {W : Type}.
Variable create : ZhipuAI -> ChatRequest -> W -> Outcome * W.

Implicit Types (s : State W) (self l : ref) (env : CoTEnvironment).

(** *** The store *)

Lemma fresh_unused (h : gmap positive obj) : h !! fresh (dom h) = None.
Proof. apply not_elem_of_dom, is_fresh. Qed.

Lemma lookup_after_alloc (h : gmap positive obj) (l : ref) (o o' : obj) :
  h !! l = Some o -> <[fresh (dom h) := o']> h !! l = Some o.
Proof.
  intros Hl. rewrite lookup_insert_ne; [exact Hl|].
  intros <-. rewrite fresh_unused in Hl. discriminate.
Qed.

Lemma alloc_extends (h : gmap positive obj) (o' : obj) :
  h ⊆ <[fresh (dom h) := o']> h.
Proof. apply insert_subseteq, fresh_unused. Qed.

(** *** The gateway, one call *)

Lemma first_item_message_content (r : Reply.Completion) s :
  bind (first_item (Reply.choices r)) message_content s = (read_reply r, s).
Proof.
  unfold bind, read_reply, first_item, message_content.
  destruct (Reply.choices r) as [|c cs]; [reflexivity|].
  cbn. destruct (Reply.message c); reflexivity.
Qed.

(** The [try] block on a gateway object: one request goes out, and the
    result is the call's followed by the reading's. *)
Lemma ask_model_body_on_env self env system_prompt user_prompt s :
  heap s !! self = Some (EnvObj env) ->
  ask_model_body create self system_prompt user_prompt s =
    let rq := build_request env system_prompt user_prompt in
    (attempt (create (client env) rq (service s)).1,
     mkState (heap s) (create (client env) rq (service s)).2 (sent s ++ [rq])).
Proof.
  intros Hself. unfold ask_model_body, bind at 1, get_env. rewrite Hself.
  unfold bind at 1, chat_completions_create.
  destruct (create _ _ _) as [[r|e] w]; cbn [fst snd attempt]; [|reflexivity].
  apply first_item_message_content.
Qed.

Lemma ask_model_on_env self env system_prompt user_prompt s :
  heap s !! self = Some (EnvObj env) ->
  ask_model create self system_prompt user_prompt s =
    (Ok (exchange create env system_prompt user_prompt (service s)).1,
     mkState (heap s)
             (exchange create env system_prompt user_prompt (service s)).2
             (sent s ++ [build_request env system_prompt user_prompt])).
Proof.
  intros Hself. unfold ask_model, try_except.
  rewrite (ask_model_body_on_env _ _ _ _ _ Hself). cbn zeta.
  unfold exchange, rendered.
  destruct (create _ _ _) as [o w]; cbn [fst snd].
  destruct (attempt o); reflexivity.
Qed.

(** Whatever [self] is, the handler turns a raise into a return. *)
Lemma ask_model_returns self system_prompt user_prompt s :
  ∃ text s', ask_model create self system_prompt user_prompt s = (Ok text, s').
Proof.
  unfold ask_model, try_except.
  destruct (ask_model_body _ _ _ _ _) as [[c|e] s']; eauto.
Qed.

(** No call touches the store. *)
Lemma ask_model_body_heap self system_prompt user_prompt s :
  heap (ask_model_body create self system_prompt user_prompt s).2 = heap s.
Proof.
  unfold ask_model_body, bind at 1, get_env.
  destruct (heap s !! self) as [[env|a]|] eqn:Hself; try reflexivity.
  unfold bind at 1, chat_completions_create.
  destruct (create _ _ _) as [[r|e] w]; [|reflexivity].
  rewrite first_item_message_content. reflexivity.
Qed.

Lemma ask_model_heap self system_prompt user_prompt s :
  heap (ask_model create self system_prompt user_prompt s).2 = heap s.
Proof.
  unfold ask_model, try_except.
  pose proof (ask_model_body_heap self system_prompt user_prompt s) as Hb.
  destruct (ask_model_body _ _ _ _ _) as [[c|e] s']; exact Hb.
Qed.

(** *** The role wrapper *)

Lemma think_via_on_agent (ask : ref -> string -> string -> M W string)
    self (agent : CoTAgent) env user_prompt s :
  heap s !! self = Some (AgentObj agent) ->
  heap s !! environment agent = Some (EnvObj env) ->
  think_via ask self user_prompt s =
    ask (environment agent) (system_message agent) user_prompt s.
Proof.
  intros Hself Henv. unfold think_via, bind at 1, get_agent. rewrite Hself.
  unfold bind, lookup_ask_model. rewrite Henv. reflexivity.
Qed.

(** *** The objects of a run *)

Lemma run_heap_gateway env (h : gmap positive obj) :
  run_heap env h !! fresh (dom h) = Some (EnvObj env).
Proof.
  unfold run_heap. cbn zeta. unfold store_new at 1 2 3.
  do 3 apply lookup_after_alloc. apply lookup_insert_eq.
Qed.

Lemma run_heap_analyzer env (h : gmap positive obj) :
  run_heap env h !! analyzer_ref env h = Some (analyzer_obj (fresh (dom h))).
Proof.
  unfold run_heap. cbn zeta. unfold store_new at 1 2.
  do 2 apply lookup_after_alloc. apply lookup_insert_eq.
Qed.

Lemma run_heap_reasoner env (h : gmap positive obj) :
  run_heap env h !! reasoner_ref env h = Some (reasoner_obj (fresh (dom h))).
Proof.
  unfold run_heap. cbn zeta. unfold store_new at 1.
  apply lookup_after_alloc. apply lookup_insert_eq.
Qed.

Lemma run_heap_verifier env (h : gmap positive obj) :
  run_heap env h !! verifier_ref env h = Some (verifier_obj (fresh (dom h))).
Proof. unfold run_heap. cbn zeta. apply lookup_insert_eq. Qed.

Lemma run_heap_extends env (h : gmap positive obj) : h ⊆ run_heap env h.
Proof.
  unfold run_heap. cbn zeta.
  repeat (etrans; [|apply alloc_extends]). reflexivity.
Qed.

(** *** The orchestration *)

(** One step of a run, on any state that holds the run's objects: the
    role wrapper can be replaced by the call it makes. *)
Lemma bind_think_via_in_run {A} (ask : ref -> string -> string -> M W string)
    self (agent : CoTAgent) env (h : gmap positive obj) user_prompt
    (k k' : string -> M W A) s :
  keeps_store ask ->
  h !! self = Some (AgentObj agent) ->
  h !! environment agent = Some (EnvObj env) ->
  heap s = h ->
  (∀ text s', heap s' = h -> k text s' = k' text s') ->
  bind (think_via ask self user_prompt) k s
    = bind (ask (environment agent) (system_message agent) user_prompt) k' s.
Proof.
  intros Hkeep Hself Henv <- Hk. unfold bind.
  rewrite (think_via_on_agent ask self agent env); [|assumption..].
  pose proof (Hkeep (environment agent) (system_message agent) user_prompt s) as Hs.
  destruct (ask _ _ _ s) as [[text|e] s']; [|reflexivity].
  apply Hk, Hs.
Qed.

(** A run builds its four objects and then makes the three calls on the
    gateway it built, with the three fixed instructions. *)
Lemma cot_process_via_steps (ask : ref -> string -> string -> M W string)
    key model0 top_p0 temperature0 max_tokens0 question s :
  keeps_store ask ->
  cot_process_via ask key model0 top_p0 temperature0 max_tokens0 question s =
    three_steps ask (fresh (dom (heap s))) question
      (mkState (run_heap (run_env key model0 top_p0 temperature0 max_tokens0) (heap s))
               (service s) (sent s)).
Proof.
  intros Hkeep.
  set (env := run_env key model0 top_p0 temperature0 max_tokens0).
  set (h := run_heap env (heap s)).
  set (l := fresh (dom (heap s))).
  set (s0 := mkState h (service s) (sent s)).
  change (cot_process_via ask key model0 top_p0 temperature0 max_tokens0 question s)
    with (bind (think_via ask (analyzer_ref env (heap s)) question) (fun steps =>
          bind (think_via ask (reasoner_ref env (heap s)) steps) (fun reasoning =>
          bind (think_via ask (verifier_ref env (heap s)) reasoning) (fun verification =>
          ret (steps, reasoning, verification)))) s0).
  pose proof (run_heap_gateway env (heap s)) as Hg.
  pose proof (run_heap_analyzer env (heap s)) as Ha.
  pose proof (run_heap_reasoner env (heap s)) as Hr.
  pose proof (run_heap_verifier env (heap s)) as Hv.
  fold h l in Hg, Ha, Hr, Hv.
  assert (heap s0 = h) as H0 by reflexivity.
  clearbody h s0. unfold three_steps.
  apply (bind_think_via_in_run ask _
           (mkCoTAgent ProblemAnalyzer_name ProblemAnalyzer_system_message l) env h);
    try assumption.
  intros steps s1 H1.
  apply (bind_think_via_in_run ask _
           (mkCoTAgent StepReasoner_name StepReasoner_system_message l) env h);
    try assumption.
  intros reasoning s2 H2.
  apply (bind_think_via_in_run ask _
           (mkCoTAgent Verifier_name Verifier_system_message l) env h);
    try assumption.
  reflexivity.
Qed.

Lemma ask_model_keeps_store : keeps_store (ask_model create).
Proof. intros l system_prompt user_prompt s. apply ask_model_heap. Qed.

(** The whole run in one equation: the value, the store, the service and
    the trace afterwards. *)
Lemma cot_process_run key model0 top_p0 temperature0 max_tokens0 question s :
  let env := run_env key model0 top_p0 temperature0 max_tokens0 in
  let out := run_texts create env question (service s) in
  cot_process create key model0 top_p0 temperature0 max_tokens0 question s =
    (Ok out.1,
     mkState (run_heap env (heap s)) out.2 (sent s ++ run_requests env question out.1)).
Proof.
  intros env out. unfold cot_process.
  rewrite (cot_process_via_steps _ _ _ _ _ _ _ _ ask_model_keeps_store).
  fold env. pose proof (run_heap_gateway env (heap s)) as Hg.
  subst out. unfold three_steps, run_texts, run_requests.
  set (h := run_heap env (heap s)) in *. set (l := fresh (dom (heap s))) in *.
  clearbody h l.
  unfold bind at 1. rewrite (ask_model_on_env l env); [|exact Hg]. cbn [heap service sent].
  destruct (exchange create env ProblemAnalyzer_system_message question (service s))
    as [steps w1]. cbn [fst snd].
  unfold bind at 1. rewrite (ask_model_on_env l env); [|exact Hg]. cbn [heap service sent].
  destruct (exchange create env StepReasoner_system_message steps w1)
    as [reasoning w2]. cbn [fst snd].
  unfold bind at 1. rewrite (ask_model_on_env l env); [|exact Hg]. cbn [heap service sent].
  destruct (exchange create env Verifier_system_message reasoning w2)
    as [verification w3]. cbn [fst snd].
  unfold ret. rewrite <- !app_assoc. reflexivity.
Qed.

(** *** The claims about the gateway *)

(** C1.  For every instruction and user text, on any object and in any
    state, [ask_model] returns and never raises.  What it returns is the
    result of its [try] block when the block completes, that is the first
    choice's message content, and it is "Error: " followed by [str(e)] in
    exactly the other case, when the block raises [e]; on a gateway object
    the block raises when the call to the service raises or when reading
    the reply does. *)
Theorem ask_model_never_raises self system_prompt user_prompt s :
  ∃ text s',
    ask_model create self system_prompt user_prompt s = (Ok text, s')
    ∧ match (ask_model_body create self system_prompt user_prompt s).1 with
      | Ok reply => text = reply
      | Raise e => text = "Error: " +:+ str e
      end
    ∧ ∀ env, heap s !! self = Some (EnvObj env) ->
        let o := (create (client env)
                    (build_request env system_prompt user_prompt) (service s)).1 in
        (ask_model_body create self system_prompt user_prompt s).1 = attempt o
        ∧ (∀ r c rest m, o = Returned r -> Reply.choices r = c :: rest ->
             Reply.message c = Some m -> text = Reply.content m)
        ∧ (∀ e, o = Raised e -> text = "Error: " +:+ str e)
        ∧ (∀ r e, o = Returned r -> read_reply r = Raise e ->
             text = "Error: " +:+ str e).
Proof.
  unfold ask_model, try_except.
  destruct (ask_model_body create self system_prompt user_prompt s)
    as [res s1] eqn:Hbody.
  assert (∃ text, (match res with
                   | Ok a => (Ok a, s1)
                   | Raise e => ret ("Error: " +:+ str e) s1
                   end = (Ok text, s1))
                  ∧ match res with
                    | Ok reply => text = reply
                    | Raise e => text = "Error: " +:+ str e
                    end) as [text [Hrun Hres]].
  { destruct res as [reply|e]; eexists; split; reflexivity. }
  exists text, s1. split; [exact Hrun|]. split; [exact Hres|].
  intros env Hself.
  set (o := (create (client env) (build_request env system_prompt user_prompt)
               (service s)).1).
  rewrite (ask_model_body_on_env _ _ _ _ _ Hself) in Hbody. cbn zeta in Hbody.
  injection Hbody as Hatt _. fold o in Hatt. cbn [fst].
  split; [symmetry; exact Hatt|]. subst res.
  split; [|split].
  - intros r c rest m Ho Hc Hm. rewrite Ho in Hres. cbn in Hres.
    unfold read_reply in Hres. rewrite Hc, Hm in Hres. exact Hres.
  - intros e Ho. rewrite Ho in Hres. exact Hres.
  - intros r e Ho He. rewrite Ho in Hres. cbn in Hres. rewrite He in Hres. exact Hres.
Qed.

(** C6.  Every request [ask_model] hands to the client, from whatever state
    and after whatever earlier exchanges, has exactly two messages, the
    system message with the instruction and then the user message with the
    caller's text, and has streaming off; one call adds at most one request
    to the trace, and on a gateway object exactly the request built from
    the object's attributes and the two arguments. *)
Theorem ask_model_request_is_stateless self system_prompt user_prompt s :
  ∃ new,
    sent (ask_model create self system_prompt user_prompt s).2 = sent s ++ new
    ∧ (length new ≤ 1)%nat
    ∧ Forall (fun rq =>
                req_messages rq = [ mkChatMessage "system" system_prompt;
                                    mkChatMessage "user" user_prompt ]
                ∧ req_stream rq = false) new
    ∧ ∀ env, heap s !! self = Some (EnvObj env) ->
        new = [build_request env system_prompt user_prompt].
Proof.
  destruct (heap s !! self) as [[env|a]|] eqn:Hself.
  - exists [build_request env system_prompt user_prompt].
    rewrite (ask_model_on_env _ _ _ _ _ Hself). cbn [snd sent length].
    repeat split; [lia | | congruence].
    repeat constructor.
  - exists []. unfold ask_model, try_except, ask_model_body, bind, get_env.
    rewrite Hself. cbn. rewrite app_nil_r.
    repeat split; [lia | constructor | discriminate].
  - exists []. unfold ask_model, try_except, ask_model_body, bind, get_env.
    rewrite Hself. cbn. rewrite app_nil_r.
    repeat split; [lia | constructor | discriminate].
Qed.

(** C10.  The handler covers the reading of the reply: when the service
    returns a reply whose [choices[0].message.content] cannot be read,
    [ask_model] returns "Error: " followed by the text of the exception
    the reading raised; for an empty list of choices this is the index
    error's text. *)
Theorem ask_model_covers_reading self env system_prompt user_prompt s
    (r : Reply.Completion) (w : W) :
  heap s !! self = Some (EnvObj env) ->
  create (client env) (build_request env system_prompt user_prompt) (service s)
    = (Returned r, w) ->
  let s' := mkState (heap s) w (sent s ++ [build_request env system_prompt user_prompt]) in
  (∀ e, read_reply r = Raise e ->
     ask_model create self system_prompt user_prompt s = (Ok ("Error: " +:+ str e), s'))
  ∧ (Reply.choices r = [] ->
     ask_model create self system_prompt user_prompt s
       = (Ok "Error: list index out of range", s'))
  ∧ (∀ c rest, Reply.choices r = c :: rest -> Reply.message c = None ->
     ask_model create self system_prompt user_prompt s
       = (Ok "Error: 'NoneType' object has no attribute 'content'", s')).
Proof.
  intros Hself Hcreate s'.
  assert (∀ e, read_reply r = Raise e ->
            ask_model create self system_prompt user_prompt s
              = (Ok ("Error: " +:+ str e), s')) as Hread.
  { intros e He. rewrite (ask_model_on_env _ _ _ _ _ Hself).
    unfold exchange, rendered. rewrite Hcreate. cbn [fst snd attempt].
    rewrite He. reflexivity. }
  split; [exact Hread|]. split.
  - intros Hnil. apply (Hread (IndexError "list index out of range")).
    unfold read_reply. rewrite Hnil. reflexivity.
  - intros c rest Hc Hm.
    apply (Hread (AttributeError "'NoneType' object has no attribute 'content'")).
    unfold read_reply. rewrite Hc, Hm. reflexivity.
Qed.

(** *** The claims about the orchestration *)

(** C2.  For every key, model, sampling values and question, in any state
    and against any service, [cot_process] returns, and what it returns is
    a tuple of three strings: the texts of the three exchanges, whether
    they are replies or error strings. *)
Theorem cot_process_returns_three_strings
    key model0 top_p0 temperature0 max_tokens0 question s :
  ∃ (steps reasoning verification : string) s',
    cot_process create key model0 top_p0 temperature0 max_tokens0 question s
      = (Ok (steps, reasoning, verification), s')
    ∧ (steps, reasoning, verification)
      = (run_texts create (run_env key model0 top_p0 temperature0 max_tokens0)
           question (service s)).1.
Proof.
  rewrite cot_process_run. cbn zeta.
  destruct (run_texts create _ question (service s)) as [[[steps reasoning] verification] w].
  exists steps, reasoning, verification. eexists. split; reflexivity.
Qed.

(** C4.  When the first call to the service raises [e], the first
    [ask_model] returns "Error: " followed by [str(e)], and the run goes
    on: [cot_process] returns three strings, the first being that error
    string; the second request carries the error string as its user text,
    and the third carries the second step's output. *)
Theorem cot_process_does_not_short_circuit
    key model0 top_p0 temperature0 max_tokens0 question s (e : PyException) (w1 : W) :
  let env := run_env key model0 top_p0 temperature0 max_tokens0 in
  create (client env) (build_request env ProblemAnalyzer_system_message question)
    (service s) = (Raised e, w1) ->
  let error := "Error: " +:+ str e in
  ask_model create (fresh (dom (heap s))) ProblemAnalyzer_system_message question
      (mkState (run_heap env (heap s)) (service s) (sent s))
    = (Ok error,
       mkState (run_heap env (heap s)) w1
         (sent s ++ [build_request env ProblemAnalyzer_system_message question]))
  ∧ ∃ (reasoning verification : string) s',
      cot_process create key model0 top_p0 temperature0 max_tokens0 question s
        = (Ok (error, reasoning, verification), s')
      ∧ sent s' = sent s ++
          [ build_request env ProblemAnalyzer_system_message question;
            build_request env StepReasoner_system_message error;
            build_request env Verifier_system_message reasoning ]
      ∧ texts_of_role "user" <$> drop (length (sent s)) (sent s')
          = [ [question]; [error]; [reasoning] ].
Proof.
  intros env Hfirst error. split.
  - rewrite (ask_model_on_env _ env); [|apply run_heap_gateway].
    unfold exchange. cbn [service]. rewrite Hfirst. reflexivity.
  - rewrite cot_process_run. cbn zeta. fold env.
    unfold run_texts.
    assert (exchange create env ProblemAnalyzer_system_message question (service s)
            = (error, w1)) as ->.
    { unfold exchange. rewrite Hfirst. reflexivity. }
    destruct (exchange create env StepReasoner_system_message error w1)
      as [reasoning w2].
    destruct (exchange create env Verifier_system_message reasoning w2)
      as [verification w3].
    exists reasoning, verification. eexists. split; [reflexivity|].
    cbn [fst snd sent run_requests]. split; [reflexivity|].
    rewrite drop_app_length. reflexivity.
Qed.

(** C5.  In every run, each of the three requests carries the [top_p],
    [temperature] and [max_tokens] given to [cot_process], as they are. *)
Theorem cot_process_forwards_sampling
    key model0 top_p0 temperature0 max_tokens0 question s :
  ∃ r1 r2 r3,
    sent (cot_process create key model0 top_p0 temperature0 max_tokens0 question s).2
      = sent s ++ [r1; r2; r3]
    ∧ Forall (fun rq =>
                req_top_p rq = top_p0
                ∧ req_temperature rq = temperature0
                ∧ req_max_tokens rq = max_tokens0) [r1; r2; r3].
Proof.
  rewrite cot_process_run. cbn zeta.
  destruct (run_texts create _ question (service s)) as [[[steps reasoning] verification] w].
  cbn [fst snd sent run_requests].
  do 3 eexists. split; [reflexivity|].
  repeat constructor.
Qed.

Lemma think_via_heap (ask : ref -> string -> string -> M W string) self user_prompt s :
  keeps_store ask ->
  heap (think_via ask self user_prompt s).2 = heap s.
Proof.
  intros Hkeep. unfold think_via, bind at 1, get_agent.
  destruct (heap s !! self) as [[env|agent]|]; try reflexivity.
  unfold bind, lookup_ask_model.
  destruct (heap s !! environment agent) as [[env|agent']|]; try reflexivity.
  apply Hkeep.
Qed.

(** C7.  In every run the three steps use the three fixed instructions as
    their system prompts, whatever the form values and the question; the
    role objects the run builds hold the fixed names and instructions when
    the run ends; and no operation changes an object: [ask_model] and
    [think] leave the store as it is, and a run only adds its own objects
    to it. *)
Theorem role_definitions_are_fixed
    key model0 top_p0 temperature0 max_tokens0 question s :
  let env := run_env key model0 top_p0 temperature0 max_tokens0 in
  let s' :=
    (cot_process create key model0 top_p0 temperature0 max_tokens0 question s).2 in
  let gateway := fresh (dom (heap s)) in
  texts_of_role "system" <$> drop (length (sent s)) (sent s')
    = [ [ProblemAnalyzer_system_message];
        [StepReasoner_system_message];
        [Verifier_system_message] ]
  ∧ heap s' !! analyzer_ref env (heap s)
      = Some (AgentObj (mkCoTAgent ProblemAnalyzer_name
                          ProblemAnalyzer_system_message gateway))
  ∧ heap s' !! reasoner_ref env (heap s)
      = Some (AgentObj (mkCoTAgent StepReasoner_name
                          StepReasoner_system_message gateway))
  ∧ heap s' !! verifier_ref env (heap s)
      = Some (AgentObj (mkCoTAgent Verifier_name Verifier_system_message gateway))
  ∧ heap s ⊆ heap s'
  ∧ (∀ self system_prompt user_prompt s0,
       heap (ask_model create self system_prompt user_prompt s0).2 = heap s0)
  ∧ (∀ self user_prompt s0,
       heap (think create self user_prompt s0).2 = heap s0).
Proof.
  intros env s' gateway. subst s'. rewrite cot_process_run. cbn zeta. fold env.
  destruct (run_texts create env question (service s))
    as [[[steps reasoning] verification] w].
  cbn [fst snd sent heap run_requests].
  split; [rewrite drop_app_length; reflexivity|].
  split; [apply run_heap_analyzer|].
  split; [apply run_heap_reasoner|].
  split; [apply run_heap_verifier|].
  split; [apply run_heap_extends|].
  split; [apply ask_model_heap|].
  intros self user_prompt s0. apply think_via_heap, ask_model_keeps_store.
Qed.

Lemma exchange_of_responder (respond : ZhipuAI -> ChatRequest -> Outcome)
    env system_prompt user_prompt (w : W) :
  (∀ c rq w', (create c rq w').1 = respond c rq) ->
  (exchange create env system_prompt user_prompt w).1
    = rendered (respond (client env) (build_request env system_prompt user_prompt)).
Proof.
  intros Hdet. unfold exchange.
  rewrite <- (Hdet (client env) (build_request env system_prompt user_prompt) w).
  destruct (create _ _ w); reflexivity.
Qed.

Lemma run_texts_of_responder (respond : ZhipuAI -> ChatRequest -> Outcome)
    env question (w : W) :
  (∀ c rq w', (create c rq w').1 = respond c rq) ->
  (run_texts create env question w).1 = texts_of_responder respond env question.
Proof.
  intros Hdet. unfold run_texts, texts_of_responder.
  pose proof (exchange_of_responder respond env
                ProblemAnalyzer_system_message question w Hdet) as H1.
  destruct (exchange create env ProblemAnalyzer_system_message question w)
    as [steps w1]. cbn [fst] in H1. subst steps.
  set (steps := rendered _).
  pose proof (exchange_of_responder respond env
                StepReasoner_system_message steps w1 Hdet) as H2.
  destruct (exchange create env StepReasoner_system_message steps w1)
    as [reasoning w2]. cbn [fst] in H2. subst reasoning.
  set (reasoning := rendered _).
  pose proof (exchange_of_responder respond env
                Verifier_system_message reasoning w2 Hdet) as H3.
  destruct (exchange create env Verifier_system_message reasoning w2)
    as [verification w3]. cbn [fst] in H3. subst verification.
  reflexivity.
Qed.

(** C8.  Runs are independent.  Against a service whose reply is a
    function of the request alone, two runs with the same arguments return
    the same triple from any two states, whatever objects earlier runs
    left in the store and whatever was sent before: the triple is a
    function of the arguments and of the response function, and the
    gateway a run uses is a new object, at a reference unused before,
    built from the values the run was given. *)
Theorem cot_process_runs_are_independent (respond : ZhipuAI -> ChatRequest -> Outcome)
    key model0 top_p0 temperature0 max_tokens0 question (s1 s2 : State W) :
  (∀ c rq w, (create c rq w).1 = respond c rq) ->
  (cot_process create key model0 top_p0 temperature0 max_tokens0 question s1).1
    = (cot_process create key model0 top_p0 temperature0 max_tokens0 question s2).1
  ∧ (cot_process create key model0 top_p0 temperature0 max_tokens0 question s1).1
    = Ok (texts_of_responder respond
            (run_env key model0 top_p0 temperature0 max_tokens0) question)
  ∧ heap s1 !! fresh (dom (heap s1)) = None
  ∧ heap (cot_process create key model0 top_p0 temperature0 max_tokens0 question s1).2
      !! fresh (dom (heap s1))
    = Some (EnvObj (run_env key model0 top_p0 temperature0 max_tokens0)).
Proof.
  intros Hdet. rewrite !cot_process_run. cbn [fst snd heap].
  rewrite !(run_texts_of_responder respond) by exact Hdet.
  repeat split; [apply fresh_unused|apply run_heap_gateway].
Qed.

(** C9.  Any sequence of [ask_model] calls on one gateway object returns,
    leaves the store as it was, so the object's attributes are the ones it
    had, and sends one request per call, each with the object's model and
    sampling values; the three requests of a run all carry the values the
    run was given. *)
Theorem ask_model_keeps_configuration self env (calls : list (string * string)) s :
  heap s !! self = Some (EnvObj env) ->
  (∃ texts s',
     ask_all create self calls s = (Ok texts, s')
     ∧ heap s' = heap s
     ∧ heap s' !! self = Some (EnvObj env)
     ∧ ∃ new, sent s' = sent s ++ new
              ∧ length new = length calls
              ∧ Forall (carries_config env) new)
  ∧ ∀ key model0 top_p0 temperature0 max_tokens0 question s0,
      Forall (carries_config (run_env key model0 top_p0 temperature0 max_tokens0))
        (drop (length (sent s0))
           (sent (cot_process create key model0 top_p0 temperature0 max_tokens0
                    question s0).2)).
Proof.
  intros Hself. split.
  - revert s Hself. induction calls as [|[system_prompt user_prompt] rest IH];
      intros s Hself.
    + exists [], s. cbn. repeat split; [exact Hself|].
      exists []. rewrite app_nil_r. repeat split. constructor.
    + cbn [ask_all]. unfold bind at 1.
      rewrite (ask_model_on_env _ env _ _ _ Hself).
      set (s1 := mkState (heap s) _ _).
      destruct (IH s1 Hself) as (texts & s' & Hrun & Hheap & Hobj & new & Hsent & Hlen & Hall).
      unfold bind at 1. rewrite Hrun.
      eexists. exists s'. split; [reflexivity|].
      split; [exact Hheap|]. split; [exact Hobj|].
      exists (build_request env system_prompt user_prompt :: new).
      split; [rewrite Hsent; subst s1; cbn [sent]; rewrite <- app_assoc; reflexivity|].
      split; [cbn; rewrite Hlen; reflexivity|].
      constructor; [repeat split|exact Hall].
  - intros key model0 top_p0 temperature0 max_tokens0 question s0.
    rewrite cot_process_run. cbn zeta.
    destruct (run_texts create _ question (service s0))
      as [[[steps reasoning] verification] w].
    cbn [fst snd sent run_requests]. rewrite drop_app_length.
    repeat constructor.
Qed.

End Properties.

(** C3.  With [ask_model] replaced by a mock that returns "A", "B" and "C"
    on its three calls, a run on any question returns ("A", "B", "C"); the
    mock is called three times, with the question, then "A", then "B" as
    the user text (and with the three fixed instructions), and nothing is
    sent to the service. *)
Theorem cot_process_chains_the_steps
    key model0 top_p0 temperature0 max_tokens0 question
    (h : gmap positive obj) (trace : list ChatRequest) :
  let run :=
    cot_process_via (mock_ask_model ["A"; "B"; "C"])
      key model0 top_p0 temperature0 max_tokens0 question (mkState h [] trace) in
  run.1 = Ok ("A", "B", "C")
  ∧ (service run.2).*2 = [question; "A"; "B"]
  ∧ service run.2 = [ (ProblemAnalyzer_system_message, question);
                      (StepReasoner_system_message, "A");
                      (Verifier_system_message, "B") ]
  ∧ sent run.2 = trace.
Proof.
  intros run. subst run.
  rewrite cot_process_via_steps.
  - repeat split.
  - intros l system_prompt user_prompt s. unfold mock_ask_model.
    destruct (_ !! _); reflexivity.
Qed.

(** ** The claims at concrete inputs *)

Lemma ask_model_never_raises_witness :
  ∃ text s',
    ask_model scripted 1%positive "Be brief." "hello" (with_gateway [reply_with "hi"])
      = (Ok text, s')
    ∧ text = "hi".
Proof.
  destruct (ask_model_never_raises scripted 1%positive "Be brief." "hello"
              (with_gateway [reply_with "hi"]))
    as (text & s' & Hrun & _ & Hon).
  exists text, s'. split; [exact Hrun|].
  destruct (Hon demo_env eq_refl) as (_ & Hcontent & _).
  apply (Hcontent (Reply.mkCompletion [Reply.mkChoice (Some (Reply.mkMessage "hi"))])
           (Reply.mkChoice (Some (Reply.mkMessage "hi"))) [] (Reply.mkMessage "hi"));
    reflexivity.
Defined.

Lemma ask_model_request_is_stateless_witness :
  sent (ask_model scripted 1%positive "Be brief." "hello"
          (with_gateway [reply_with "hi"])).2
    = [ {| req_model := "glm-4-plus";
           req_messages := [ mkChatMessage "system" "Be brief.";
                             mkChatMessage "user" "hello" ];
           req_top_p := 0.5;
           req_temperature := 0.5;
           req_max_tokens := 600;
           req_stream := false |} ].
Proof.
  destruct (ask_model_request_is_stateless scripted 1%positive "Be brief." "hello"
              (with_gateway [reply_with "hi"]))
    as (new & Hsent & _ & _ & Hon).
  rewrite Hsent, (Hon demo_env eq_refl). reflexivity.
Defined.

Lemma ask_model_covers_reading_witness :
  ask_model scripted 1%positive "Be brief." "hello"
      (with_gateway [Returned (Reply.mkCompletion [])])
    = (Ok "Error: list index out of range",
       mkState (heap (with_gateway [Returned (Reply.mkCompletion [])])) []
         [build_request demo_env "Be brief." "hello"]).
Proof.
  refine (proj1 (proj2
    (ask_model_covers_reading scripted 1%positive demo_env "Be brief." "hello"
       (with_gateway [Returned (Reply.mkCompletion [])])
       (Reply.mkCompletion []) [] _ _)) _); reflexivity.
Defined.

Lemma cot_process_does_not_short_circuit_witness :
  ∃ s',
    cot_process scripted "secret" "glm-4-plus" 0.5 0.5 600 "Why is the sky blue?"
        (start [Raised connection_error; reply_with "B"; reply_with "C"])
      = (Ok ("Error: Connection error.", "B", "C"), s')
    ∧ texts_of_role "user" <$> sent s'
      = [ ["Why is the sky blue?"]; ["Error: Connection error."]; ["B"] ].
Proof.
  destruct (cot_process_does_not_short_circuit scripted
              "secret" "glm-4-plus" 0.5 0.5 600 "Why is the sky blue?"
              (start [Raised connection_error; reply_with "B"; reply_with "C"])
              connection_error [reply_with "B"; reply_with "C"] eq_refl)
    as (_ & reasoning & verification & s' & Hrun & _ & Huser).
  assert (reasoning = "B" ∧ verification = "C") as [-> ->].
  { pose proof Hrun as Hvalue. vm_compute in Hvalue.
    injection Hvalue; intros; split; congruence. }
  exists s'. split; [exact Hrun|exact Huser].
Defined.

Lemma cot_process_runs_are_independent_witness :
  (cot_process parrot "secret" "glm-4-plus" 0.5 0.5 600 "q" (start tt)).1
    = (cot_process parrot "secret" "glm-4-plus" 0.5 0.5 600 "q"
         (cot_process parrot "other" "glm-4" 0.25 0.75 100 "an earlier question"
            (start tt)).2).1.
Proof.
  refine (proj1 (cot_process_runs_are_independent parrot parrot_reply
                   "secret" "glm-4-plus" 0.5 0.5 600 "q" _ _ _)).
  intros c rq w. reflexivity.
Defined.

Lemma ask_model_keeps_configuration_witness :
  ∃ texts s',
    ask_all scripted 1%positive [("Be brief.", "hello"); ("Be kind.", "again")]
        (with_gateway [reply_with "hi"; Raised connection_error])
      = (Ok texts, s')
    ∧ heap s' !! 1%positive = Some (EnvObj demo_env)
    ∧ Forall (carries_config demo_env) (sent s').
Proof.
  destruct (ask_model_keeps_configuration scripted 1%positive demo_env
              [("Be brief.", "hello"); ("Be kind.", "again")]
              (with_gateway [reply_with "hi"; Raised connection_error]) eq_refl)
    as ((texts & s' & Hrun & _ & Hobj & new & Hsent & _ & Hall) & _).
  exists texts, s'. split; [exact Hrun|]. split; [exact Hobj|].
  rewrite Hsent. exact Hall.
Defined.

(** ** Further properties of the code *)

Section Further.

Context {W : Type}.
Variable create : ZhipuAI -> ChatRequest -> W -> Outcome * W.

Implicit Types (s : State W) (self l : ref) (env : CoTEnvironment).

(** *** The role wrapper, [CoTAgent.think] *)

(** X1.  On an agent whose [environment] is a gateway object, [think] is the
    gateway's [ask_model] with the agent's [system_message]: same value,
    same state afterwards.  So it returns and never raises, the text is
    the gateway's text unchanged, one request goes out with the agent's
    instruction as system message and the prompt as user message, and the
    store is left alone. *)
Theorem think_delegates self (agent : CoTAgent) env user_prompt s :
  heap s !! self = Some (AgentObj agent) ->
  heap s !! environment agent = Some (EnvObj env) ->
  let rq := build_request env (system_message agent) user_prompt in
  think create self user_prompt s
    = ask_model create (environment agent) (system_message agent) user_prompt s
  ∧ think create self user_prompt s
    = (Ok (rendered (create (client env) rq (service s)).1),
       mkState (heap s) (create (client env) rq (service s)).2 (sent s ++ [rq])).
Proof.
  intros Hself Henv rq. unfold think.
  rewrite (think_via_on_agent _ self agent env _ _ Hself Henv).
  split; [reflexivity|].
  rewrite (ask_model_on_env create _ env _ _ _ Henv). fold rq.
  unfold exchange. fold rq. destruct (create (client env) rq (service s)); reflexivity.
Qed.

(** X2.  The handler of [ask_model] does not protect the role wrapper: on
    an agent whose [environment] is not a gateway object, [think] raises
    an attribute error, whatever method stands for [ask_model]; the method
    is not called, nothing is sent and the state is as before. *)
Theorem think_needs_a_gateway (ask : ref -> string -> string -> M W string)
    self (agent : CoTAgent) user_prompt s :
  heap s !! self = Some (AgentObj agent) ->
  (∀ env, heap s !! environment agent ≠ Some (EnvObj env)) ->
  ∃ e, think_via ask self user_prompt s = (Raise e, s)
       ∧ exc_type e = "AttributeError".
Proof.
  intros Hself Hnot. unfold think_via, bind at 1, get_agent. rewrite Hself.
  unfold bind, lookup_ask_model.
  destruct (heap s !! environment agent) as [[env|other]|] eqn:Henv.
  - destruct (Hnot env eq_refl).
  - eexists. split; reflexivity.
  - eexists. split; reflexivity.
Qed.

(** X3.  The attribute reads of [ask_model] are inside its [try]: called on
    something that is not a gateway object it does not raise either, it
    returns "Error: " followed by the attribute error's text, sends
    nothing and leaves the state as it was. *)
Theorem ask_model_on_another_object self system_prompt user_prompt s :
  (∀ env, heap s !! self ≠ Some (EnvObj env)) ->
  ∃ e, ask_model create self system_prompt user_prompt s
         = (Ok ("Error: " +:+ str e), s)
       ∧ exc_type e = "AttributeError".
Proof.
  intros Hnot. unfold ask_model, try_except, ask_model_body, bind, get_env.
  destruct (heap s !! self) as [[env|other]|] eqn:Hself.
  - destruct (Hnot env eq_refl).
  - eexists. split; reflexivity.
  - eexists. split; reflexivity.
Qed.

(** X4.  The [name] of an agent is never used: two agents with the same
    instruction and the same gateway give the same text, the same request
    and the same state, whatever they are called. *)
Theorem think_ignores_the_name self1 self2 (agent1 agent2 : CoTAgent) env user_prompt s :
  heap s !! self1 = Some (AgentObj agent1) ->
  heap s !! self2 = Some (AgentObj agent2) ->
  system_message agent1 = system_message agent2 ->
  environment agent1 = environment agent2 ->
  heap s !! environment agent1 = Some (EnvObj env) ->
  think create self1 user_prompt s = think create self2 user_prompt s.
Proof.
  intros H1 H2 Hmsg Henv Hgw. unfold think.
  rewrite (think_via_on_agent _ self1 agent1 env _ _ H1 Hgw).
  rewrite Henv in Hgw.
  rewrite (think_via_on_agent _ self2 agent2 env _ _ H2 Hgw).
  rewrite Hmsg, Henv. reflexivity.
Qed.

(** *** The orchestration, [cot_process] *)

Lemma exchange_returned env system_prompt user_prompt (w w' : W)
    (r : Reply.Completion) (text : string) :
  create (client env) (build_request env system_prompt user_prompt) w = (Returned r, w') ->
  read_reply r = Ok text ->
  exchange create env system_prompt user_prompt w = (text, w').
Proof.
  intros Hcall Hread. unfold exchange. rewrite Hcall.
  unfold rendered, attempt. rewrite Hread. reflexivity.
Qed.

Lemma exchange_raised env system_prompt user_prompt (w w' : W) (e : PyException) :
  create (client env) (build_request env system_prompt user_prompt) w = (Raised e, w') ->
  exchange create env system_prompt user_prompt w = ("Error: " +:+ str e, w').
Proof. intros Hcall. unfold exchange. rewrite Hcall. reflexivity. Qed.

(** X5.  A failure at the second step: when the first reply reads [steps]
    and the second call raises [e], the run still returns; the first text
    is [steps] as read, the second is "Error: " followed by [str(e)], and
    the third request carries that error string as its user text. *)
Theorem second_step_failure_is_passed_on
    key model0 top_p0 temperature0 max_tokens0 question s
    (r1 : Reply.Completion) (steps : string) (e : PyException) (w1 w2 : W) :
  let env := run_env key model0 top_p0 temperature0 max_tokens0 in
  create (client env) (build_request env ProblemAnalyzer_system_message question)
    (service s) = (Returned r1, w1) ->
  read_reply r1 = Ok steps ->
  create (client env) (build_request env StepReasoner_system_message steps) w1
    = (Raised e, w2) ->
  ∃ (verification : string) s',
    cot_process create key model0 top_p0 temperature0 max_tokens0 question s
      = (Ok (steps, "Error: " +:+ str e, verification), s')
    ∧ sent s' = sent s ++
        [ build_request env ProblemAnalyzer_system_message question;
          build_request env StepReasoner_system_message steps;
          build_request env Verifier_system_message ("Error: " +:+ str e) ].
Proof.
  intros env H1 Hr1 H2. rewrite cot_process_run. cbn zeta. fold env.
  unfold run_texts.
  rewrite (exchange_returned _ _ _ _ _ _ _ H1 Hr1).
  rewrite (exchange_raised _ _ _ _ _ _ H2).
  destruct (exchange create env Verifier_system_message ("Error: " +:+ str e) w2)
    as [verification w3].
  exists verification. eexists. split; reflexivity.
Qed.

(** X6.  A failure at the last step touches the last text only: when the
    first two replies read [steps] and [reasoning] and the third call
    raises [e], the run returns [steps], [reasoning] and "Error: "
    followed by [str(e)]; three requests went out and the service was
    called three times. *)
Theorem third_step_failure_is_contained
    key model0 top_p0 temperature0 max_tokens0 question s
    (r1 r2 : Reply.Completion) (steps reasoning : string) (e : PyException)
    (w1 w2 w3 : W) :
  let env := run_env key model0 top_p0 temperature0 max_tokens0 in
  create (client env) (build_request env ProblemAnalyzer_system_message question)
    (service s) = (Returned r1, w1) ->
  read_reply r1 = Ok steps ->
  create (client env) (build_request env StepReasoner_system_message steps) w1
    = (Returned r2, w2) ->
  read_reply r2 = Ok reasoning ->
  create (client env) (build_request env Verifier_system_message reasoning) w2
    = (Raised e, w3) ->
  cot_process create key model0 top_p0 temperature0 max_tokens0 question s
    = (Ok (steps, reasoning, "Error: " +:+ str e),
       mkState (run_heap env (heap s)) w3
         (sent s ++
            [ build_request env ProblemAnalyzer_system_message question;
              build_request env StepReasoner_system_message steps;
              build_request env Verifier_system_message reasoning ])).
Proof.
  intros env H1 Hr1 H2 Hr2 H3. rewrite cot_process_run. cbn zeta. fold env.
  unfold run_texts.
  rewrite (exchange_returned _ _ _ _ _ _ _ H1 Hr1).
  rewrite (exchange_returned _ _ _ _ _ _ _ H2 Hr2).
  rewrite (exchange_raised _ _ _ _ _ _ H3).
  reflexivity.
Qed.

(** X7.  Against a service that raises [e] on every call, the run is not
    cut short: it makes its three calls and returns the error string three
    times; the second and third requests carry the error string as their
    user text. *)
Theorem run_against_a_failing_service
    key model0 top_p0 temperature0 max_tokens0 question s (e : PyException) :
  (∀ c rq w, (create c rq w).1 = Raised e) ->
  let error := "Error: " +:+ str e in
  let run := cot_process create key model0 top_p0 temperature0 max_tokens0 question s in
  run.1 = Ok (error, error, error)
  ∧ texts_of_role "user" <$> drop (length (sent s)) (sent run.2)
    = [ [question]; [error]; [error] ].
Proof.
  intros Hdown error run. subst run. rewrite cot_process_run. cbn [fst snd sent].
  rewrite (run_texts_of_responder create (fun _ _ => Raised e)) by exact Hdown.
  split; [reflexivity|].
  cbn [texts_of_responder run_requests]. rewrite drop_app_length. reflexivity.
Qed.

(** X8.  When the three replies can be read, the texts come back as the
    service wrote them: the run returns exactly the three contents, each
    call is made on the service state the call before left, and each
    content is the user text of the next request. *)
Theorem run_returns_the_contents
    key model0 top_p0 temperature0 max_tokens0 question s
    (r1 r2 r3 : Reply.Completion) (steps reasoning verification : string)
    (w1 w2 w3 : W) :
  let env := run_env key model0 top_p0 temperature0 max_tokens0 in
  create (client env) (build_request env ProblemAnalyzer_system_message question)
    (service s) = (Returned r1, w1) ->
  read_reply r1 = Ok steps ->
  create (client env) (build_request env StepReasoner_system_message steps) w1
    = (Returned r2, w2) ->
  read_reply r2 = Ok reasoning ->
  create (client env) (build_request env Verifier_system_message reasoning) w2
    = (Returned r3, w3) ->
  read_reply r3 = Ok verification ->
  cot_process create key model0 top_p0 temperature0 max_tokens0 question s
    = (Ok (steps, reasoning, verification),
       mkState (run_heap env (heap s)) w3
         (sent s ++
            [ build_request env ProblemAnalyzer_system_message question;
              build_request env StepReasoner_system_message steps;
              build_request env Verifier_system_message reasoning ])).
Proof.
  intros env H1 Hr1 H2 Hr2 H3 Hr3. rewrite cot_process_run. cbn zeta. fold env.
  unfold run_texts.
  rewrite (exchange_returned _ _ _ _ _ _ _ H1 Hr1).
  rewrite (exchange_returned _ _ _ _ _ _ _ H2 Hr2).
  rewrite (exchange_returned _ _ _ _ _ _ _ H3 Hr3).
  reflexivity.
Qed.

(** X10.  A run reads nothing of the program's state: from two states that
    agree on the state of the service, whatever their stores and traces,
    it returns the same triple, sends the same three requests and leaves
    the service in the same state. *)
Theorem run_depends_on_the_service_only
    key model0 top_p0 temperature0 max_tokens0 question (s1 s2 : State W) :
  service s1 = service s2 ->
  let run1 := cot_process create key model0 top_p0 temperature0 max_tokens0 question s1 in
  let run2 := cot_process create key model0 top_p0 temperature0 max_tokens0 question s2 in
  run1.1 = run2.1
  ∧ service run1.2 = service run2.2
  ∧ drop (length (sent s1)) (sent run1.2) = drop (length (sent s2)) (sent run2.2).
Proof.
  intros Hservice run1 run2. subst run1 run2. rewrite !cot_process_run.
  cbn [fst snd service sent]. rewrite !drop_app_length, Hservice. repeat split.
Qed.

Lemma exchange_recording env system_prompt user_prompt
    (w : W) (log : list (string * ChatRequest)) :
  exchange (recording create) env system_prompt user_prompt (w, log)
    = ((exchange create env system_prompt user_prompt w).1,
       ((exchange create env system_prompt user_prompt w).2,
        log ++ [(api_key (client env), build_request env system_prompt user_prompt)])).
Proof.
  unfold exchange, recording. cbn [fst snd].
  destruct (create _ _ w) as [o w']. reflexivity.
Qed.

(** X9.  The key of the form goes with every call: with a recorder in
    front of any service, a run adds exactly three entries to the record,
    one per request it sent and in the same order, each with the key the
    run was given; the recorder changes nothing of what the run returns. *)
Theorem run_calls_with_the_key
    key model0 top_p0 temperature0 max_tokens0 question
    (s : State (W * list (string * ChatRequest))) :
  let run :=
    cot_process (recording create) key model0 top_p0 temperature0 max_tokens0
      question s in
  let new := drop (length (sent s)) (sent run.2) in
  (service run.2).2 = (service s).2 ++ ((fun rq => (key, rq)) <$> new)
  ∧ length new = 3
  ∧ run.1 = Ok (run_texts create (run_env key model0 top_p0 temperature0 max_tokens0)
                  question (service s).1).1.
Proof.
  intros run new. subst new run. rewrite cot_process_run. cbn [fst snd service sent].
  rewrite drop_app_length.
  set (env := run_env key model0 top_p0 temperature0 max_tokens0).
  destruct (service s) as [w log]. cbn [fst snd].
  unfold run_texts. rewrite exchange_recording.
  destruct (exchange create env ProblemAnalyzer_system_message question w)
    as [steps w1]. cbn [fst snd].
  rewrite exchange_recording.
  destruct (exchange create env StepReasoner_system_message steps w1)
    as [reasoning w2]. cbn [fst snd].
  rewrite exchange_recording.
  destruct (exchange create env Verifier_system_message reasoning w2)
    as [verification w3]. cbn [fst snd run_requests].
  rewrite <- !app_assoc. repeat split.
Qed.

(** X11.  Nothing but [ask_model] catches: when the method put in the place
    of [ask_model] raises at the first step, [think] and [cot_process]
    raise the same exception and the later steps are not run; when it
    raises at the second step, the run raises then, and the third step is
    not run. *)
Theorem raising_gateway_aborts_the_run (ask : ref -> string -> string -> M W string)
    key model0 top_p0 temperature0 max_tokens0 question s :
  keeps_store ask ->
  let env := run_env key model0 top_p0 temperature0 max_tokens0 in
  let gateway := fresh (dom (heap s)) in
  let s0 := mkState (run_heap env (heap s)) (service s) (sent s) in
  (∀ e s1,
     ask gateway ProblemAnalyzer_system_message question s0 = (Raise e, s1) ->
     cot_process_via ask key model0 top_p0 temperature0 max_tokens0 question s
       = (Raise e, s1))
  ∧ (∀ steps e s1 s2,
       ask gateway ProblemAnalyzer_system_message question s0 = (Ok steps, s1) ->
       ask gateway StepReasoner_system_message steps s1 = (Raise e, s2) ->
       cot_process_via ask key model0 top_p0 temperature0 max_tokens0 question s
         = (Raise e, s2)).
Proof.
  intros Hkeep env gateway s0.
  rewrite (cot_process_via_steps ask _ _ _ _ _ _ _ Hkeep).
  fold env gateway s0. unfold three_steps. split.
  - intros e s1 H1. unfold bind at 1. rewrite H1. reflexivity.
  - intros steps e s1 s2 H1 H2. unfold bind at 1. rewrite H1.
    unfold bind at 1. rewrite H2. reflexivity.
Qed.

End Further.

(** ** The further properties at concrete inputs *)

Lemma think_delegates_witness :
  think scripted 2%positive "hello" (with_misplaced_agent [reply_with "hi"])
    = (Ok "hi",
       mkState (heap (with_misplaced_agent [reply_with "hi"])) []
         [build_request demo_env "Be brief." "hello"]).
Proof.
  exact (proj2 (think_delegates scripted 2%positive
                  (mkCoTAgent "Helper" "Be brief." 1%positive) demo_env "hello"
                  (with_misplaced_agent [reply_with "hi"]) eq_refl eq_refl)).
Defined.

Lemma think_needs_a_gateway_witness :
  ∃ e, think scripted 3%positive "hello" (with_misplaced_agent [reply_with "hi"])
         = (Raise e, with_misplaced_agent [reply_with "hi"])
       ∧ exc_type e = "AttributeError".
Proof.
  apply (think_needs_a_gateway (ask_model scripted) 3%positive
           (mkCoTAgent "Lost" "Be kind." 2%positive) "hello"
           (with_misplaced_agent [reply_with "hi"]) eq_refl).
  intros env Henv. vm_compute in Henv. discriminate Henv.
Defined.

Lemma ask_model_on_another_object_witness :
  ∃ e, ask_model scripted 2%positive "Be brief." "hello"
         (with_misplaced_agent [reply_with "hi"])
         = (Ok ("Error: " +:+ str e), with_misplaced_agent [reply_with "hi"])
       ∧ exc_type e = "AttributeError".
Proof.
  apply (ask_model_on_another_object scripted 2%positive "Be brief." "hello"
           (with_misplaced_agent [reply_with "hi"])).
  intros env Henv. vm_compute in Henv. discriminate Henv.
Defined.

Lemma think_ignores_the_name_witness :
  think scripted 2%positive "hello" (with_two_names [reply_with "hi"])
    = think scripted 3%positive "hello" (with_two_names [reply_with "hi"]).
Proof.
  exact (think_ignores_the_name scripted 2%positive 3%positive
           (mkCoTAgent "Analyst" "Be brief." 1%positive)
           (mkCoTAgent "Critic" "Be brief." 1%positive) demo_env "hello"
           (with_two_names [reply_with "hi"])
           eq_refl eq_refl eq_refl eq_refl eq_refl).
Defined.

Lemma second_step_failure_is_passed_on_witness :
  ∃ verification s',
    cot_process scripted "secret" "glm-4-plus" 0.5 0.5 600 "Why is the sky blue?"
        (start [reply_with "A"; Raised connection_error; reply_with "C"])
      = (Ok ("A", "Error: Connection error.", verification), s')
    ∧ sent s'
      = [ build_request demo_env ProblemAnalyzer_system_message "Why is the sky blue?";
          build_request demo_env StepReasoner_system_message "A";
          build_request demo_env Verifier_system_message "Error: Connection error." ].
Proof.
  exact (second_step_failure_is_passed_on scripted
           "secret" "glm-4-plus" 0.5 0.5 600 "Why is the sky blue?"
           (start [reply_with "A"; Raised connection_error; reply_with "C"])
           (Reply.mkCompletion [Reply.mkChoice (Some (Reply.mkMessage "A"))]) "A"
           connection_error [Raised connection_error; reply_with "C"] [reply_with "C"]
           eq_refl eq_refl eq_refl).
Defined.

Lemma third_step_failure_is_contained_witness :
  (cot_process scripted "secret" "glm-4-plus" 0.5 0.5 600 "Why is the sky blue?"
     (start [reply_with "A"; reply_with "B"; Raised connection_error])).1
    = Ok ("A", "B", "Error: Connection error.").
Proof.
  exact (f_equal fst
           (third_step_failure_is_contained scripted
              "secret" "glm-4-plus" 0.5 0.5 600 "Why is the sky blue?"
              (start [reply_with "A"; reply_with "B"; Raised connection_error])
              (Reply.mkCompletion [Reply.mkChoice (Some (Reply.mkMessage "A"))])
              (Reply.mkCompletion [Reply.mkChoice (Some (Reply.mkMessage "B"))])
              "A" "B" connection_error
              [reply_with "B"; Raised connection_error] [Raised connection_error] []
              eq_refl eq_refl eq_refl eq_refl eq_refl)).
Defined.

Lemma run_against_a_failing_service_witness :
  (cot_process (unreachable connection_error)
     "secret" "glm-4-plus" 0.5 0.5 600 "Why is the sky blue?" (start tt)).1
    = Ok ("Error: Connection error.", "Error: Connection error.",
          "Error: Connection error.").
Proof.
  refine (proj1 (run_against_a_failing_service (unreachable connection_error)
                   "secret" "glm-4-plus" 0.5 0.5 600 "Why is the sky blue?" (start tt)
                   connection_error _)).
  intros c rq w. reflexivity.
Defined.

Lemma run_returns_the_contents_witness :
  (cot_process scripted "secret" "glm-4-plus" 0.5 0.5 600 "Why is the sky blue?"
     (start [reply_with "A"; reply_with "B"; reply_with "C"])).1
    = Ok ("A", "B", "C").
Proof.
  exact (f_equal fst
           (run_returns_the_contents scripted
              "secret" "glm-4-plus" 0.5 0.5 600 "Why is the sky blue?"
              (start [reply_with "A"; reply_with "B"; reply_with "C"])
              (Reply.mkCompletion [Reply.mkChoice (Some (Reply.mkMessage "A"))])
              (Reply.mkCompletion [Reply.mkChoice (Some (Reply.mkMessage "B"))])
              (Reply.mkCompletion [Reply.mkChoice (Some (Reply.mkMessage "C"))])
              "A" "B" "C"
              [reply_with "B"; reply_with "C"] [reply_with "C"] []
              eq_refl eq_refl eq_refl eq_refl eq_refl eq_refl)).
Defined.

Lemma run_depends_on_the_service_only_witness :
  (cot_process scripted "secret" "glm-4-plus" 0.5 0.5 600 "q"
     (start [reply_with "A"; Raised connection_error])).1
    = (cot_process scripted "secret" "glm-4-plus" 0.5 0.5 600 "q"
         (with_misplaced_agent [reply_with "A"; Raised connection_error])).1.
Proof.
  exact (proj1 (run_depends_on_the_service_only scripted
                  "secret" "glm-4-plus" 0.5 0.5 600 "q"
                  (start [reply_with "A"; Raised connection_error])
                  (with_misplaced_agent [reply_with "A"; Raised connection_error])
                  eq_refl)).
Defined.

Lemma raising_gateway_aborts_the_run_witness :
  ∃ e s',
    cot_process_via (mock_ask_model ["A"])
        "secret" "glm-4-plus" 0.5 0.5 600 "q" (start [])
      = (Raise e, s')
    ∧ exc_type e = "StopIteration"
    ∧ (service s').*2 = ["q"; "A"].
Proof.
  assert (keeps_store (mock_ask_model ["A"])) as Hkeep.
  { intros l system_prompt user_prompt s. unfold mock_ask_model.
    destruct (_ !! _); reflexivity. }
  pose proof (proj2 (raising_gateway_aborts_the_run (mock_ask_model ["A"])
                       "secret" "glm-4-plus" 0.5 0.5 600 "q" (start []) Hkeep))
    as Hsecond.
  do 2 eexists. split; [|split].
  - eapply (Hsecond "A"); reflexivity.
  - reflexivity.
  - reflexivity.
Defined.
